(** * The event-management API service (server/app.py)

    A shallow embedding of the Flask handlers of [server/app.py] and of the
    four tables they read and write.

    Modelling decisions, all taken from the source file:
    - a request body ([request.get_json()]) is a Python dict from field
      names to JSON values: [gmap string pyval];
    - a table is the list of its rows in insertion order; the integer
      primary key of a new row is one more than the largest key in use;
    - a cell holds the value the handler hands to the model constructor;
      the constraints the model classes declare ([nullable=False],
      [unique=True], [default=...]) are enforced when the session commits;
      foreign keys are declared but not checked by the storage engine,
      and the engine's own conversions between column types are left out,
      so the statements about credentials are made for string values;
    - [datetime.fromisoformat] belongs to the Python library and is a
      parameter of [create_event]; [datetime.utcnow] is the [now] argument
      of [process_payment];
    - an exception no handler catches ends the request without a commit. *)

From Stdlib Require Import ZArith Ascii String Floats.SpecFloat DecimalString.
From stdpp Require Import gmap strings list.

Open Scope string_scope.

(** ** Python values that come out of a JSON body *)

#[local] Set Warnings "-register-all".

Inductive pyval : Type :=
  | VNone
  | VBool (b : bool)
  | VInt (n : Z)
  | VFloat (f : spec_float)
  | VStr (s : string)
  | VList (items : list pyval)
  | VDict (fields : list (string * pyval)).

(** Python truth value: [bool(v)], the test behind [not v], [if v], [and]. *)
Definition truthy (v : pyval) : bool :=
  match v with
  | VNone => false
  | VBool b => b
  | VInt n => negb (n =? 0)%Z
  | VFloat (S754_zero _) => false
  | VFloat _ => true
  | VStr s => negb (String.eqb s "")
  | VList items => match items with [] => false | _ => true end
  | VDict fields => match fields with [] => false | _ => true end
  end.

(** [data.get(key)] and [data.get(key, default)]. *)
Definition dict_get (data : gmap string pyval) (key : string) : pyval :=
  default VNone (data !! key).

Definition dict_get_or (data : gmap string pyval) (key : string)
    (dflt : pyval) : pyval :=
  default dflt (data !! key).

(** Equality of the two float representations, then of values. *)
Definition spec_float_eqb (a b : spec_float) : bool :=
  match a, b with
  | S754_zero s, S754_zero t => Bool.eqb s t
  | S754_infinity s, S754_infinity t => Bool.eqb s t
  | S754_nan, S754_nan => true
  | S754_finite s m e, S754_finite t n f =>
      Bool.eqb s t && Pos.eqb m n && Z.eqb e f
  | _, _ => false
  end.

Fixpoint pyval_eqb (a b : pyval) : bool :=
  match a, b with
  | VNone, VNone => true
  | VBool x, VBool y => Bool.eqb x y
  | VInt x, VInt y => Z.eqb x y
  | VFloat x, VFloat y => spec_float_eqb x y
  | VStr x, VStr y => String.eqb x y
  | VList xs, VList ys =>
      (fix items (xs ys : list pyval) : bool :=
         match xs, ys with
         | [], [] => true
         | x :: xs', y :: ys' => pyval_eqb x y && items xs' ys'
         | _, _ => false
         end) xs ys
  | VDict xs, VDict ys =>
      (fix fields (xs ys : list (string * pyval)) : bool :=
         match xs, ys with
         | [], [] => true
         | (k, x) :: xs', (l, y) :: ys' =>
             String.eqb k l && pyval_eqb x y && fields xs' ys'
         | _, _ => false
         end) xs ys
  | _, _ => false
  end.

(** ** Timestamps: the naive [datetime] a DateTime column keeps *)

Record datetime : Type := mk_datetime {
  year : N; month : N; day : N;
  hour : N; minute : N; second : N; microsecond : N
}.

(** Decimal rendering of [n], left-padded with zeros to [width] digits. *)
Fixpoint zeros (k : nat) : string :=
  match k with O => "" | S k' => "0" ++ zeros k' end.

Definition zfill (width : nat) (n : N) : string :=
  let digits := NilZero.string_of_uint (N.to_uint n) in
  zeros (width - String.length digits) ++ digits.

(** [datetime.isoformat()] of a naive timestamp. *)
Definition isoformat (d : datetime) : string :=
  zfill 4 (year d) ++ "-" ++ zfill 2 (month d) ++ "-" ++ zfill 2 (day d)
  ++ "T" ++ zfill 2 (hour d) ++ ":" ++ zfill 2 (minute d) ++ ":"
  ++ zfill 2 (second d)
  ++ (if (microsecond d =? 0)%N then "" else "." ++ zfill 6 (microsecond d)).

(** ** Rows of the four model classes *)

Module User.
Record t : Type := mk {
  id : Z; username : pyval; password : pyval; role : pyval
}.
End User.

Module Event.
Record t : Type := mk {
  id : Z; title : pyval; description : pyval; date : option datetime;
  location : pyval; price : pyval; organizer_id : pyval
}.
End Event.

Module Registration.
Record t : Type := mk {
  id : Z; attendee_id : pyval; event_id : pyval; registration_type : pyval
}.
End Registration.

Module Payment.
Record t : Type := mk {
  id : Z; user_id : pyval; event_id : pyval; amount : pyval;
  payment_method : pyval; status : pyval; timestamp : datetime
}.
End Payment.

(** The database: one list of rows per table. *)
Record db : Type := mk_db {
  users : list User.t;
  events : list Event.t;
  registrations : list Registration.t;
  payments : list Payment.t
}.

Definition empty_db : db := mk_db [] [] [] [].

(** ** Exceptions, results and responses *)

Inductive pyexn : Type := ValueError | TypeError | IntegrityError.

Inductive result (A : Type) : Type :=
  | Ok (a : A)
  | Raise (e : pyexn).
Arguments Ok {A} a.
Arguments Raise {A} e.

(** What a request ends in: a JSON response with its status code, the 404
    of [get_or_404], or an exception that no handler caught. *)
Inductive outcome : Type :=
  | Json (code : Z) (body : pyval)
  | NotFound
  | Uncaught (e : pyexn).

Definition error_body (msg : string) : pyval := VDict [("error", VStr msg)].
Definition message_body (msg : string) : pyval := VDict [("message", VStr msg)].

(** ** The storage layer: [db.session.add] followed by [db.session.commit] *)

(** Integer primary key given to a new row. *)
Definition next_id {A : Type} (key : A -> Z) (rows : list A) : Z :=
  (1 + foldr (fun r m => Z.max (key r) m) 0 rows)%Z.

Definition is_none (v : pyval) : bool :=
  match v with VNone => true | _ => false end.

(** A column declared with [default=d] takes [d] when the attribute is
    [None] at commit time. *)
Definition column_default (d v : pyval) : pyval :=
  if is_none v then d else v.

Definition username_taken (u : pyval) (rows : list User.t) : bool :=
  existsb (fun row => pyval_eqb (User.username row) u) rows.

(** [User]: username and password are [nullable=False], username is
    [unique=True], role has [default='user']. *)
Definition commit_user (username password role : pyval) (s : db) : result db :=
  if is_none username || is_none password then Raise IntegrityError
  else if username_taken username (users s) then Raise IntegrityError
  else Ok (mk_db
             (users s ++ [User.mk (next_id User.id (users s)) username password
                            (column_default (VStr "user") role)])
             (events s) (registrations s) (payments s)).

(** [Event]: title and organizer_id are [nullable=False], price has
    [default=0.0]. *)
Definition commit_event (title description : pyval) (date : option datetime)
    (location price organizer_id : pyval) (s : db) : result db :=
  if is_none title || is_none organizer_id then Raise IntegrityError
  else Ok (mk_db (users s)
             (events s ++ [Event.mk (next_id Event.id (events s)) title
                             description date location
                             (column_default (VFloat (S754_zero false)) price)
                             organizer_id])
             (registrations s) (payments s)).

(** [Registration]: attendee_id and event_id are [nullable=False]. *)
Definition commit_registration (attendee_id event_id registration_type : pyval)
    (s : db) : result db :=
  if is_none attendee_id || is_none event_id then Raise IntegrityError
  else Ok (mk_db (users s) (events s)
             (registrations s ++
                [Registration.mk (next_id Registration.id (registrations s))
                   attendee_id event_id registration_type])
             (payments s)).

(** [Payment]: user_id, event_id and amount are [nullable=False], status
    has [default='pending'], timestamp has [default=datetime.utcnow]; [now]
    is the clock reading at commit time. *)
Definition commit_payment (user_id event_id amount payment_method status : pyval)
    (now : datetime) (s : db) : result db :=
  if is_none user_id || is_none event_id || is_none amount
  then Raise IntegrityError
  else Ok (mk_db (users s) (events s) (registrations s)
             (payments s ++
                [Payment.mk (next_id Payment.id (payments s)) user_id event_id
                   amount payment_method
                   (column_default (VStr "pending") status) now])).

(** ** The API endpoints *)

(** [register_user]: POST /api/users/register. *)
Definition register_user (data : gmap string pyval) (s : db) : outcome * db :=
  let username := dict_get data "username" in
  let password := dict_get data "password" in
  let role := dict_get_or data "role" (VStr "user") in
  if negb (truthy username) || negb (truthy password) then
    (Json 400 (error_body "Missing username or password"), s)
  else
    match find (fun row => pyval_eqb (User.username row) username) (users s) with
    | Some _ => (Json 400 (error_body "Username already exists"), s)
    | None =>
        match commit_user username password role s with
        | Ok s' => (Json 200 (message_body "User registered successfully"), s')
        | Raise e => (Uncaught e, s)
        end
    end.

(** The body of a successful login. *)
Definition login_body (user : User.t) : pyval :=
  VDict [("message", VStr "Login successful");
         ("user", VDict [("id", VInt (User.id user));
                         ("username", User.username user);
                         ("role", User.role user)])].

(** [login_user]: POST /api/users/login. *)
Definition login_user (data : gmap string pyval) (s : db) : outcome * db :=
  let username := dict_get data "username" in
  let password := dict_get data "password" in
  match find (fun row => pyval_eqb (User.username row) username
                         && pyval_eqb (User.password row) password) (users s) with
  | Some user => (Json 200 (login_body user), s)
  | None => (Json 400 (error_body "Invalid credentials"), s)
  end.

(** The dict both event endpoints build from a row. *)
Definition event_summary (event : Event.t) : pyval :=
  VDict [("id", VInt (Event.id event));
         ("title", Event.title event);
         ("description", Event.description event);
         ("date", match Event.date event with
                  | Some d => VStr (isoformat d)
                  | None => VNone
                  end);
         ("location", Event.location event);
         ("price", Event.price event);
         ("organizer_id", Event.organizer_id event)].

(** [get_events]: GET /api/events. *)
Definition get_events (s : db) : outcome * db :=
  (Json 200 (VList (map event_summary (events s))), s).

(** [get_event]: GET /api/events/<int:event_id>. *)
Definition get_event (event_id : Z) (s : db) : outcome * db :=
  match find (fun row => (Event.id row =? event_id)%Z) (events s) with
  | Some event => (Json 200 (event_summary event), s)
  | None => (NotFound, s)
  end.

(** [register_to_event]: POST /api/registrations. *)
Definition register_to_event (data : gmap string pyval) (s : db) : outcome * db :=
  let attendee_id := dict_get data "attendee_id" in
  let event_id := dict_get data "event_id" in
  let registration_type := dict_get_or data "registration_type" (VStr "general") in
  if negb (truthy attendee_id) || negb (truthy event_id) then
    (Json 400 (error_body "Missing attendee_id or event_id"), s)
  else
    match commit_registration attendee_id event_id registration_type s with
    | Ok s' => (Json 200 (message_body "Registration successful"), s')
    | Raise e => (Uncaught e, s)
    end.

(** [process_payment]: POST /api/payment; [now] is the clock reading used
    for the timestamp default. The status in the response is read back
    from the row that was committed. *)
Definition process_payment (now : datetime) (data : gmap string pyval) (s : db)
    : outcome * db :=
  let user_id := dict_get data "user_id" in
  let event_id := dict_get data "event_id" in
  let amount := dict_get data "amount" in
  let payment_method := dict_get data "payment_method" in
  if negb (truthy user_id && truthy event_id && truthy amount
           && truthy payment_method) then
    (Json 400 (error_body "Missing payment details"), s)
  else
    match commit_payment user_id event_id amount payment_method
            (VStr "successful") now s with
    | Ok s' =>
        (Json 200 (VDict [("message", VStr "Payment processed successfully");
                          ("paymentStatus",
                           match last (payments s') with
                           | Some p => Payment.status p
                           | None => VNone
                           end)]), s')
    | Raise e => (Uncaught e, s)
    end.

Section WithParser.

(** [datetime.fromisoformat] of the Python in use, on a string: [None]
    stands for the [ValueError] it raises on a string it cannot parse;
    the result is the naive timestamp the DateTime column keeps. *)
Variable fromisoformat : string -> option datetime.

(** [datetime.fromisoformat(date_str) if date_str else None]. *)
Definition event_date_of (date_str : pyval) : result (option datetime) :=
  if truthy date_str then
    match date_str with
    | VStr text =>
        match fromisoformat text with
        | Some d => Ok (Some d)
        | None => Raise ValueError
        end
    | _ => Raise TypeError
    end
  else Ok None.

(** [create_event]: POST /api/events. Only [ValueError] is caught. *)
Definition create_event (data : gmap string pyval) (s : db) : outcome * db :=
  let title := dict_get data "title" in
  let description := dict_get data "description" in
  let date_str := dict_get data "date" in
  let location := dict_get data "location" in
  let price := dict_get_or data "price" (VFloat (S754_zero false)) in
  let organizer_id := dict_get data "organizer_id" in
  match event_date_of date_str with
  | Raise ValueError => (Json 400 (error_body "Invalid date format"), s)
  | Raise e => (Uncaught e, s)
  | Ok event_date =>
      match commit_event title description event_date location price
              organizer_id s with
      | Ok s' => (Json 200 (message_body "Event created successfully"), s')
      | Raise e => (Uncaught e, s)
      end
  end.

(** ** The service as a transition system *)

Inductive request : Type :=
  | POST_users_register (data : gmap string pyval)
  | POST_users_login (data : gmap string pyval)
  | GET_events
  | GET_event (event_id : Z)
  | POST_events (data : gmap string pyval)
  | POST_registrations (data : gmap string pyval)
  | POST_payment (now : datetime) (data : gmap string pyval).

Definition handle (r : request) (s : db) : outcome * db :=
  match r with
  | POST_users_register data => register_user data s
  | POST_users_login data => login_user data s
  | GET_events => get_events s
  | GET_event event_id => get_event event_id s
  | POST_events data => create_event data s
  | POST_registrations data => register_to_event data s
  | POST_payment now data => process_payment now data s
  end.

(** The state after serving a list of requests in order. *)
Definition serve (rs : list request) (s : db) : db :=
  foldl (fun acc r => snd (handle r acc)) s rs.

(** States the API can bring the freshly created tables to. *)
Definition reachable (s : db) : Prop :=
  exists rs : list request, serve rs empty_db = s.

End WithParser.

(** A parser for the plain calendar-date form [YYYY-MM-DD], read as midnight
    of that day: an instance of the parameter above on which the scenarios
    below are run. Every other string is refused. *)
Definition digit_of (c : ascii) : option N :=
  let n := N_of_ascii c in
  if (48 <=? n)%N && (n <=? 57)%N then Some (n - 48)%N else None.

Fixpoint number_of (cs : list ascii) (acc : N) : option N :=
  match cs with
  | [] => Some acc
  | c :: cs' =>
      match digit_of c with
      | Some d => number_of cs' (10 * acc + d)%N
      | None => None
      end
  end.

Definition is_leap (y : N) : bool :=
  ((y mod 4 =? 0) && (negb (y mod 100 =? 0) || (y mod 400 =? 0)))%N.

Definition days_in_month (y m : N) : N :=
  match m with
  | 2%N => if is_leap y then 29 else 28
  | 4%N | 6%N | 9%N | 11%N => 30
  | _ => 31
  end.

Definition fromisoformat_date (text : string) : option datetime :=
  match String.list_ascii_of_string text with
  | [y1; y2; y3; y4; s1; m1; m2; s2; d1; d2] =>
      if Ascii.eqb s1 "-" && Ascii.eqb s2 "-" then
        match number_of [y1; y2; y3; y4] 0, number_of [m1; m2] 0,
              number_of [d1; d2] 0 with
        | Some y, Some m, Some d =>
            if ((1 <=? y) && (1 <=? m) && (m <=? 12) && (1 <=? d)
                && (d <=? days_in_month y m))%N
            then Some (mk_datetime y m d 0 0 0 0)
            else None
        | _, _, _ => None
        end
      else None
  | _ => None
  end.

(** ** Predicates and queries used in the statements *)

Open Scope list_scope.

(** [extends s s']: every table of [s'] is the table of [s] followed by
    further rows. *)
Definition extends (s s' : db) : Prop :=
  (exists more, users s' = users s ++ more)
  /\ (exists more, events s' = events s ++ more)
  /\ (exists more, registrations s' = registrations s ++ more)
  /\ (exists more, payments s' = payments s ++ more).

Definition by_username (u : pyval) (row : User.t) : bool :=
  pyval_eqb (User.username row) u.


(** Usernames are pairwise distinct and truthy: the table satisfies the
    unique constraint, and no row carries an empty username. *)
Definition users_wf (rows : list User.t) : Prop :=
  NoDup (map User.username rows)
  /\ Forall (fun row => truthy (User.username row) = true) rows.

(** Every Payment row carries the status "successful". *)
Definition all_successful (rows : list Payment.t) : Prop :=
  Forall (fun row => Payment.status row = VStr "successful") rows.


(** The value a response dict holds under a key. *)
Definition dict_field (k : string) (v : pyval) : option pyval :=
  match v with
  | VDict fields => snd <$> find (fun kv => String.eqb (fst kv) k) fields
  | _ => None
  end.

(** The serialisation of the date column in a summary. *)
Definition date_json (date : option datetime) : pyval :=
  match date with
  | Some d => VStr (isoformat d)
  | None => VNone
  end.

(** ** Scenario data *)

Definition alice_secret : gmap string pyval :=
  {[ "username" := VStr "alice"; "password" := VStr "secret" ]}.

Definition bob_row : User.t := User.mk 1 (VStr "bob") (VStr "hunter2") (VStr "organizer").

Definition bob_only : db := mk_db [bob_row] [] [] [].

Definition noon : datetime := mk_datetime 2024 5 1 12 0 0 0.

Definition card_payment : gmap string pyval :=
  {[ "user_id" := VInt 1; "event_id" := VInt 1;
     "amount" := VFloat (S754_finite false 5 1);
     "payment_method" := VStr "card" ]}.

Definition conf_body : gmap string pyval :=
  {[ "title" := VStr "Conf"; "organizer_id" := VInt 1;
     "price" := VFloat (S754_finite false 5 1) ]}.

Definition gala_body : gmap string pyval :=
  {[ "title" := VStr "Gala"; "organizer_id" := VInt 1;
     "date" := VStr "2024-02-29" ]}.


Definition bob_another : gmap string pyval :=
  {[ "username" := VStr "bob"; "password" := VStr "another" ]}.

Definition bob_no_password : gmap string pyval :=
  {[ "username" := VStr "bob"; "password" := VStr "" ]}.

Definition bob_wrong_case : gmap string pyval :=
  {[ "username" := VStr "bob"; "password" := VStr "Hunter2" ]}.

Definition conf_without_organizer : gmap string pyval :=
  {[ "title" := VStr "Conf"; "date" := VStr "2024-05-01" ]}.

Definition untitled_party : gmap string pyval :=
  {[ "description" := VStr "launch party"; "organizer_id" := VInt 1 ]}.

Definition conf_not_a_date : gmap string pyval :=
  {[ "title" := VStr "Conf"; "organizer_id" := VInt 1;
     "date" := VStr "not-a-date" ]}.



Definition attendee_zero : gmap string pyval :=
  {[ "attendee_id" := VInt 0; "event_id" := VInt 1 ]}.

Definition after_payments : db :=
  serve fromisoformat_date
    [POST_users_register alice_secret; POST_payment noon card_payment;
     POST_payment noon (delete "amount" card_payment);
     POST_payment noon card_payment] empty_db.

Definition two_events : db :=
  serve fromisoformat_date [POST_events conf_body; POST_events gala_body] bob_only.

(** ** Induction over values, through the lists they nest *)

Section PyvalInduction.
Variable P : pyval -> Prop.
Hypothesis HNone : P VNone.
Hypothesis HBool : forall b, P (VBool b).
Hypothesis HInt : forall n, P (VInt n).
Hypothesis HFloat : forall f, P (VFloat f).
Hypothesis HStr : forall s, P (VStr s).
Hypothesis HList : forall items, Forall P items -> P (VList items).
Hypothesis HDict : forall fields, Forall (fun kv => P (snd kv)) fields ->
                                  P (VDict fields).

Fixpoint pyval_nested_ind (v : pyval) : P v :=
  match v with
  | VNone => HNone
  | VBool b => HBool b
  | VInt n => HInt n
  | VFloat f => HFloat f
  | VStr s => HStr s
  | VList items =>
      HList items
        ((fix all (l : list pyval) : Forall P l :=
            match l with
            | [] => List.Forall_nil P
            | x :: l' => List.Forall_cons P x l' (pyval_nested_ind x) (all l')
            end) items)
  | VDict fields =>
      HDict fields
        ((fix all (l : list (string * pyval))
            : Forall (fun kv => P (snd kv)) l :=
            match l with
            | [] => List.Forall_nil _
            | kv :: l' =>
                List.Forall_cons _ kv l' (pyval_nested_ind (snd kv)) (all l')
            end) fields)
  end.
End PyvalInduction.

(** ** Tables, keys and the effect of one request *)

Inductive table : Type := Users | Events | Registrations | Payments.

(** The table a request can write to: the one its handler hands a new
    object to with [db.session.add]. *)
Definition written_table (r : request) : option table :=
  match r with
  | POST_users_register _ => Some Users
  | POST_events _ => Some Events
  | POST_registrations _ => Some Registrations
  | POST_payment _ _ => Some Payments
  | POST_users_login _ | GET_events | GET_event _ => None
  end.

(** [adds_row t s s']: [s'] is [s] with exactly one row appended to table
    [t], under the next primary key, and nothing else changed. *)
Definition adds_row (t : table) (s s' : db) : Prop :=
  match t with
  | Users =>
      exists row, User.id row = next_id User.id (users s)
        /\ s' = mk_db (users s ++ [row]) (events s) (registrations s) (payments s)
  | Events =>
      exists row, Event.id row = next_id Event.id (events s)
        /\ s' = mk_db (users s) (events s ++ [row]) (registrations s) (payments s)
  | Registrations =>
      exists row, Registration.id row = next_id Registration.id (registrations s)
        /\ s' = mk_db (users s) (events s) (registrations s ++ [row]) (payments s)
  | Payments =>
      exists row, Payment.id row = next_id Payment.id (payments s)
        /\ s' = mk_db (users s) (events s) (registrations s) (payments s ++ [row])
  end.

(** The response is a JSON body with status 200. *)
Definition is_success (o : outcome) : bool :=
  match o with
  | Json 200 _ => true
  | _ => false
  end.

(** Primary keys count the rows of a table from 1, in table order. *)
Definition sequential {A : Type} (key : A -> Z) (rows : list A) : Prop :=
  forall (i : nat) (row : A), rows !! i = Some row -> key row = (Z.of_nat i + 1)%Z.

Definition ids_sequential (s : db) : Prop :=
  sequential User.id (users s)
  /\ sequential Event.id (events s)
  /\ sequential Registration.id (registrations s)
  /\ sequential Payment.id (payments s).

(** No stored username or password is falsy. *)
Definition credentials_truthy (rows : list User.t) : Prop :=
  Forall (fun row => truthy (User.username row) = true
                     /\ truthy (User.password row) = true) rows.

Definition total_rows (s : db) : nat :=
  length (users s) + length (events s) + length (registrations s)
  + length (payments s).


Definition numeric_date_body : gmap string pyval :=
  {[ "title" := VStr "Conf"; "organizer_id" := VInt 1; "date" := VInt 20240501 ]}.


(** * Properties *)

(** ** Rendering and parsing of dates *)

Example isoformat_new_year :
  isoformat (mk_datetime 2024 1 1 9 30 0 0) = "2024-01-01T09:30:00".
Proof. reflexivity. Qed.

Example isoformat_micro :
  isoformat (mk_datetime 987 12 31 23 59 59 1500) = "0987-12-31T23:59:59.001500".
Proof. reflexivity. Qed.

Example fromisoformat_date_ok :
  fromisoformat_date "2024-02-29" = Some (mk_datetime 2024 2 29 0 0 0 0).
Proof. reflexivity. Qed.

Example fromisoformat_date_refuses :
  fromisoformat_date "not-a-date" = None /\ fromisoformat_date "2023-02-29" = None.
Proof. split; reflexivity. Qed.

(** ** Values *)

Lemma spec_float_eqb_eq (a b : spec_float) :
  spec_float_eqb a b = true <-> a = b.
Proof.
  destruct a, b; simpl; try (split; [discriminate | congruence]);
    rewrite ?andb_true_iff, ?Bool.eqb_true_iff, ?Pos.eqb_eq, ?Z.eqb_eq;
    split; try congruence; intuition congruence.
Qed.

Lemma pyval_eqb_eq (a b : pyval) : pyval_eqb a b = true <-> a = b.
Proof.
  revert b. induction a as [| x | x | x | x | xs IH | xs IH]
    using pyval_nested_ind; intros [| y | y | y | y | ys | ys]; simpl;
    try (split; [discriminate | congruence]); try tauto.
  - rewrite Bool.eqb_true_iff. split; congruence.
  - rewrite Z.eqb_eq. split; congruence.
  - rewrite spec_float_eqb_eq. split; congruence.
  - rewrite String.eqb_eq. split; congruence.
  - revert ys. induction IH as [| x xs Hx _ IHxs]; intros [| y ys];
      try (split; [discriminate | congruence]); try tauto.
    rewrite andb_true_iff, Hx, IHxs. split.
    + intros [-> H]. congruence.
    + intros H. injection H as -> ->. tauto.
  - revert ys. induction IH as [| [k x] xs Hx _ IHxs]; intros [| [l y] ys];
      try (split; [discriminate | congruence]); try tauto.
    simpl in Hx.
    rewrite !andb_true_iff, String.eqb_eq, Hx, IHxs. split.
    + intros [[-> ->] H]. congruence.
    + intros H. injection H as -> -> ->. tauto.
Qed.

Lemma pyval_eqb_refl (v : pyval) : pyval_eqb v v = true.
Proof. by apply pyval_eqb_eq. Qed.

Lemma pyval_eqb_neq (a b : pyval) : pyval_eqb a b = false <-> a <> b.
Proof.
  rewrite <- pyval_eqb_eq. destruct (pyval_eqb a b); split; congruence.
Qed.

Lemma truthy_not_none (v : pyval) : truthy v = true -> is_none v = false.
Proof. by destruct v. Qed.

Lemma truthy_str (s : string) : truthy (VStr s) = true <-> s <> "".
Proof.
  simpl. rewrite negb_true_iff. apply String.eqb_neq.
Qed.

Lemma dict_get_Some (data : gmap string pyval) (k : string) (v : pyval) :
  data !! k = Some v -> dict_get data k = v.
Proof. unfold dict_get. by intros ->. Qed.

Lemma dict_get_None (data : gmap string pyval) (k : string) :
  data !! k = None -> dict_get data k = VNone.
Proof. unfold dict_get. by intros ->. Qed.

(** ** The storage layer only appends *)

Lemma extends_refl (s : db) : extends s s.
Proof. repeat split; exists []; by rewrite app_nil_r. Qed.

Lemma extends_trans (s1 s2 s3 : db) :
  extends s1 s2 -> extends s2 s3 -> extends s1 s3.
Proof.
  intros (Hu & He & Hr & Hp) (Hu' & He' & Hr' & Hp').
  destruct Hu as [a Hu], He as [b He], Hr as [c Hr], Hp as [d Hp].
  destruct Hu' as [a' Hu'], He' as [b' He'], Hr' as [c' Hr'], Hp' as [d' Hp'].
  repeat split; eexists.
  - rewrite Hu', Hu, <- app_assoc. reflexivity.
  - rewrite He', He, <- app_assoc. reflexivity.
  - rewrite Hr', Hr, <- app_assoc. reflexivity.
  - rewrite Hp', Hp, <- app_assoc. reflexivity.
Qed.

Ltac extends_by_cases :=
  repeat case_match; simplify_eq; simpl;
  first [ apply extends_refl
        | repeat split; simpl;
          first [ by (exists []; rewrite app_nil_r) | by eexists ] ].

Lemma commit_user_extends (u p r : pyval) (s s' : db) :
  commit_user u p r s = Ok s' -> extends s s'.
Proof. unfold commit_user. intros H. extends_by_cases. Qed.

Lemma commit_event_extends (t d : pyval) (dt : option datetime)
    (l pr o : pyval) (s s' : db) :
  commit_event t d dt l pr o s = Ok s' -> extends s s'.
Proof. unfold commit_event. intros H. extends_by_cases. Qed.

Lemma commit_registration_extends (a e t : pyval) (s s' : db) :
  commit_registration a e t s = Ok s' -> extends s s'.
Proof. unfold commit_registration. intros H. extends_by_cases. Qed.

Lemma commit_payment_extends (u e a m st : pyval) (now : datetime) (s s' : db) :
  commit_payment u e a m st now s = Ok s' -> extends s s'.
Proof. unfold commit_payment. intros H. extends_by_cases. Qed.

Lemma handle_extends (parser : string -> option datetime) (r : request) (s : db) :
  extends s (snd (handle parser r s)).
Proof.
  destruct r; simpl.
  - unfold register_user.
    destruct (commit_user _ _ _ s) eqn:E;
      [apply commit_user_extends in E|]; repeat case_match; simpl;
      auto using extends_refl.
  - unfold login_user. case_match; apply extends_refl.
  - apply extends_refl.
  - unfold get_event. case_match; apply extends_refl.
  - unfold create_event.
    destruct (event_date_of parser _) as [dt | e]; [| destruct e; apply extends_refl].
    destruct (commit_event _ _ dt _ _ _ s) eqn:E;
      [apply commit_event_extends in E|]; simpl; auto using extends_refl.
  - unfold register_to_event.
    destruct (commit_registration _ _ _ s) eqn:E;
      [apply commit_registration_extends in E|]; repeat case_match; simpl;
      auto using extends_refl.
  - unfold process_payment.
    destruct (commit_payment _ _ _ _ _ now s) eqn:E;
      [apply commit_payment_extends in E|]; repeat case_match; simpl;
      auto using extends_refl.
Qed.

Lemma serve_extends (parser : string -> option datetime) (rs : list request)
    (s : db) :
  extends s (serve parser rs s).
Proof.
  revert s. induction rs as [| r rs IH]; intros s; simpl.
  - apply extends_refl.
  - eapply extends_trans; [apply (handle_extends parser r) | apply IH].
Qed.

Lemma serve_app (parser : string -> option datetime) (rs1 rs2 : list request)
    (s : db) :
  serve parser (rs1 ++ rs2) s = serve parser rs2 (serve parser rs1 s).
Proof. unfold serve. apply foldl_app. Qed.

(** Reachability is closed under serving one more request. *)
Lemma reachable_step (parser : string -> option datetime) (r : request) (s : db) :
  reachable parser s -> reachable parser (snd (handle parser r s)).
Proof.
  intros [rs <-]. exists (rs ++ [r]). by rewrite serve_app.
Qed.

Lemma reachable_ind (parser : string -> option datetime) (P : db -> Prop) :
  P empty_db ->
  (forall r s, P s -> P (snd (handle parser r s))) ->
  forall s, reachable parser s -> P s.
Proof.
  intros H0 Hstep s [rs <-].
  induction rs as [| r rs IH] using rev_ind; [exact H0 |].
  rewrite serve_app. simpl. by apply Hstep.
Qed.

(** ** Users: registration and login *)

Lemma find_by_username_None (u : pyval) (rows : list User.t) :
  find (by_username u) rows = None <->
  forall row, row ∈ rows -> User.username row <> u.
Proof.
  induction rows as [| r rows IH]; simpl.
  - split; [intros _ row Hin; by apply not_elem_of_nil in Hin | done].
  - unfold by_username at 1. destruct (pyval_eqb (User.username r) u) eqn:E.
    + split; [done |]. intros H. apply pyval_eqb_eq in E.
      destruct (H r); [left | done].
    + rewrite IH. apply pyval_eqb_neq in E. split.
      * intros H row [-> | Hin]%elem_of_cons; auto.
      * intros H row Hin. apply H. by right.
Qed.

Lemma username_taken_false (u : pyval) (rows : list User.t) :
  username_taken u rows = false <->
  forall row, row ∈ rows -> User.username row <> u.
Proof.
  rewrite <- find_by_username_None. unfold username_taken.
  induction rows as [| r rows IH]; simpl; [done |].
  unfold by_username at 1. destruct (pyval_eqb (User.username r) u); simpl; [done | exact IH].
Qed.


(** Registration with a truthy, unused username and a truthy password
    commits one new row. *)
Lemma register_user_fresh (data : gmap string pyval) (s : db) :
  truthy (dict_get data "username") = true ->
  truthy (dict_get data "password") = true ->
  (forall row, row ∈ users s ->
               User.username row <> dict_get data "username") ->
  register_user data s =
    (Json 200 (message_body "User registered successfully"),
     mk_db (users s ++
              [User.mk (next_id User.id (users s)) (dict_get data "username")
                 (dict_get data "password")
                 (column_default (VStr "user")
                    (dict_get_or data "role" (VStr "user")))])
           (events s) (registrations s) (payments s)).
Proof.
  intros Hu Hp Hfresh. unfold register_user. rewrite Hu, Hp. simpl.
  pose proof (proj2 (find_by_username_None _ _) Hfresh) as Hfind.
  unfold by_username in Hfind. rewrite Hfind.
  unfold commit_user.
  rewrite (truthy_not_none _ Hu), (truthy_not_none _ Hp). simpl.
  by rewrite (proj2 (username_taken_false _ _) Hfresh).
Qed.

(** Registration under a username some row already carries. *)
Lemma register_user_taken (data : gmap string pyval) (s : db) :
  truthy (dict_get data "username") = true ->
  truthy (dict_get data "password") = true ->
  (exists row, row ∈ users s /\ User.username row = dict_get data "username") ->
  register_user data s = (Json 400 (error_body "Username already exists"), s).
Proof.
  intros Hu Hp (row & Hin & Hrow). unfold register_user. rewrite Hu, Hp. simpl.
  destruct (find _ (users s)) eqn:Hfind; [done |].
  exfalso. eapply (proj1 (find_by_username_None _ _)); eauto.
Qed.

Lemma register_user_wf (data : gmap string pyval) (s : db) :
  users_wf (users s) -> users_wf (users (snd (register_user data s))).
Proof.
  intros [Hnd Hall]. unfold register_user.
  destruct (negb (truthy (dict_get data "username"))
            || negb (truthy (dict_get data "password"))) eqn:Hmiss; [done |].
  apply orb_false_elim in Hmiss as [Hu%negb_false_iff Hp%negb_false_iff].
  destruct (find _ (users s)) eqn:Hfind; [done |].
  unfold commit_user.
  rewrite (truthy_not_none _ Hu), (truthy_not_none _ Hp). simpl.
  pose proof (proj1 (find_by_username_None _ _) Hfind) as Hfresh.
  rewrite (proj2 (username_taken_false _ _) Hfresh). simpl. split.
  - rewrite map_app. simpl. apply NoDup_app. repeat split; [done | | apply NoDup_singleton].
    intros v Hv Hv'. apply list_elem_of_singleton in Hv' as ->.
    apply list_elem_of_fmap in Hv as (row & Heq & Hin).
    by apply (Hfresh row Hin).
  - apply Forall_app. split; [done |]. by constructor.
Qed.

Lemma handle_users_wf (parser : string -> option datetime) (r : request) (s : db) :
  users_wf (users s) -> users_wf (users (snd (handle parser r s))).
Proof.
  intros Hwf. destruct r; simpl.
  - by apply register_user_wf.
  - unfold login_user. by case_match.
  - done.
  - unfold get_event. by case_match.
  - unfold create_event, commit_event. repeat case_match; simplify_eq; by simpl.
  - unfold register_to_event, commit_registration. repeat case_match; simplify_eq; by simpl.
  - unfold process_payment, commit_payment. repeat case_match; simplify_eq; by simpl.
Qed.

Lemma reachable_users_wf (parser : string -> option datetime) (s : db) :
  reachable parser s -> users_wf (users s).
Proof.
  revert s. apply (reachable_ind parser (fun s => users_wf (users s))).
  - split; simpl; constructor.
  - intros r s'. apply handle_users_wf.
Qed.




(** C2 (as amended): in every state in which some User row has the
    non-empty username [u], a [register_user] call with username [u] and any
    non-empty (truthy) password, equal to the stored one or not, returns
    HTTP 400 with error "Username already exists" and leaves the User rows,
    and the rest of the database, unchanged. *)
Theorem register_duplicate_username (data : gmap string pyval) (u : string)
    (s : db) :
  u <> "" ->
  data !! "username" = Some (VStr u) ->
  truthy (dict_get data "password") = true ->
  (exists row, row ∈ users s /\ User.username row = VStr u) ->
  register_user data s = (Json 400 (error_body "Username already exists"), s).
Proof.
  intros Hu Du Hp Hrow. apply dict_get_Some in Du.
  apply register_user_taken; rewrite ?Du; [by apply truthy_str | done | done].
Qed.

Lemma register_duplicate_username_witness :
  register_user bob_another bob_only =
    (Json 400 (error_body "Username already exists"), bob_only).
Proof.
  apply (register_duplicate_username _ "bob").
  - discriminate.
  - reflexivity.
  - reflexivity.
  - exists bob_row. split; [by left | reflexivity].
Defined.

(** C2, as first stated, fails when the password of the second call is
    empty: the presence check comes first and answers with the
    missing-field error, not the duplicate-username error. *)
Lemma register_duplicate_empty_password :
  (exists row, row ∈ users bob_only /\ User.username row = VStr "bob")
  /\ bob_no_password !! "username" = Some (VStr "bob")
  /\ register_user bob_no_password bob_only =
       (Json 400 (error_body "Missing username or password"), bob_only)
  /\ fst (register_user bob_no_password bob_only) <>
       Json 400 (error_body "Username already exists").
Proof.
  repeat split.
  - exists bob_row. split; [by left | reflexivity].
  - discriminate.
Qed.



(** A prefix of the stored password and a missing password are refused
    as well. *)
Example login_partial_password :
  login_user {[ "username" := VStr "bob"; "password" := VStr "hunter" ]} bob_only
  = (Json 400 (error_body "Invalid credentials"), bob_only)
  /\ login_user {[ "username" := VStr "bob" ]} bob_only
     = (Json 400 (error_body "Invalid credentials"), bob_only).
Proof. split; reflexivity. Qed.

(** ** Events: creation *)






Lemma dict_get_delete (data : gmap string pyval) (k : string) :
  dict_get (delete k data) k = VNone.
Proof. unfold dict_get. by rewrite lookup_delete_eq. Qed.

(** What [create_event] does once the date has been dealt with. *)
Lemma create_event_unfold (parser : string -> option datetime)
    (data : gmap string pyval) (s : db) :
  create_event parser data s =
    match event_date_of parser (dict_get data "date") with
    | Raise ValueError => (Json 400 (error_body "Invalid date format"), s)
    | Raise e => (Uncaught e, s)
    | Ok event_date =>
        if is_none (dict_get data "title")
           || is_none (dict_get data "organizer_id")
        then (Uncaught IntegrityError, s)
        else (Json 200 (message_body "Event created successfully"),
              mk_db (users s)
                (events s ++
                   [Event.mk (next_id Event.id (events s))
                      (dict_get data "title") (dict_get data "description")
                      event_date (dict_get data "location")
                      (column_default (VFloat (S754_zero false))
                         (dict_get_or data "price" (VFloat (S754_zero false))))
                      (dict_get data "organizer_id")])
                (registrations s) (payments s))
    end.
Proof.
  unfold create_event, commit_event.
  destruct (event_date_of parser _) as [d | e]; [| done].
  by destruct (is_none _ || is_none _).
Qed.


(** C4 (as amended): a [create_event] call whose body omits title or
    organizer_id meets no presence check in the handler (the only 400 it
    can get is the one for a malformed date), but both columns are declared
    [nullable=False]: the commit raises an integrity error that the handler
    does not catch, so no Event row is persisted and the success message is
    not returned. *)
Theorem create_event_missing_required (parser : string -> option datetime)
    (data : gmap string pyval) (s : db) :
  data !! "title" = None \/ data !! "organizer_id" = None ->
  create_event parser data s =
    (match event_date_of parser (dict_get data "date") with
     | Ok _ => Uncaught IntegrityError
     | Raise ValueError => Json 400 (error_body "Invalid date format")
     | Raise e => Uncaught e
     end, s).
Proof.
  intros Hmissing. rewrite create_event_unfold.
  assert (is_none (dict_get data "title")
          || is_none (dict_get data "organizer_id") = true) as ->.
  { destruct Hmissing as [H | H]; rewrite (dict_get_None _ _ H); simpl;
      [done | apply orb_true_r]. }
  destruct (event_date_of parser _) as [d | []]; reflexivity.
Qed.

Lemma create_event_missing_required_witness :
  create_event fromisoformat_date conf_without_organizer bob_only
  = (Uncaught IntegrityError, bob_only).
Proof.
  apply (create_event_missing_required fromisoformat_date).
  right. reflexivity.
Defined.

(** C4, as first stated, fails: a body without a title is neither stored
    with a null title nor answered with the success message. *)
Lemma create_event_without_title_not_persisted :
  untitled_party !! "title" = None
  /\ create_event fromisoformat_date untitled_party bob_only
     = (Uncaught IntegrityError, bob_only)
  /\ fst (create_event fromisoformat_date untitled_party bob_only)
     <> Json 200 (message_body "Event created successfully")
  /\ events (snd (create_event fromisoformat_date untitled_party bob_only)) = [].
Proof. repeat split. discriminate. Qed.

(** C5: for every [create_event] call whose date field is a non-empty
    string the parser refuses, the call returns HTTP 400 with error
    "Invalid date format" and the database, the event table included, is
    left as it was. *)
Theorem create_event_malformed_date (parser : string -> option datetime)
    (data : gmap string pyval) (text : string) (s : db) :
  data !! "date" = Some (VStr text) ->
  text <> "" ->
  parser text = None ->
  create_event parser data s = (Json 400 (error_body "Invalid date format"), s)
  /\ events (snd (create_event parser data s)) = events s.
Proof.
  intros Hdate Hne Hbad. apply dict_get_Some in Hdate.
  assert (create_event parser data s
          = (Json 400 (error_body "Invalid date format"), s)) as ->; [| done].
  rewrite create_event_unfold, Hdate. unfold event_date_of.
  rewrite (proj2 (truthy_str text) Hne), Hbad. reflexivity.
Qed.

Lemma create_event_malformed_date_witness :
  create_event fromisoformat_date conf_not_a_date bob_only
    = (Json 400 (error_body "Invalid date format"), bob_only)
  /\ events (snd (create_event fromisoformat_date conf_not_a_date bob_only)) = [].
Proof.
  apply (create_event_malformed_date fromisoformat_date _ "not-a-date").
  - reflexivity.
  - discriminate.
  - reflexivity.
Defined.




(** ** Registrations *)

(** C9: a [register_to_event] call in which attendee_id or event_id is
    present but falsy (0, the empty string, null, false, an empty
    container) is answered with HTTP 400 and error "Missing attendee_id or
    event_id", exactly as the same call with that field removed, and the
    database, the registration table included, is left as it was. *)
Theorem register_to_event_falsy_id (data : gmap string pyval) (k : string)
    (s : db) :
  k = "attendee_id" \/ k = "event_id" ->
  truthy (dict_get data k) = false ->
  register_to_event data s
    = (Json 400 (error_body "Missing attendee_id or event_id"), s)
  /\ register_to_event (delete k data) s = register_to_event data s
  /\ registrations (snd (register_to_event data s)) = registrations s.
Proof.
  intros Hk Hfalsy.
  assert (register_to_event data s
          = (Json 400 (error_body "Missing attendee_id or event_id"), s)) as Herr.
  { unfold register_to_event. destruct Hk as [-> | ->]; rewrite Hfalsy; simpl;
      [done | by rewrite orb_true_r]. }
  rewrite Herr. repeat split.
  unfold register_to_event.
  destruct Hk as [-> | ->]; rewrite dict_get_delete; simpl;
    [done | by rewrite orb_true_r].
Qed.

Lemma register_to_event_falsy_id_witness :
  register_to_event attendee_zero bob_only
    = (Json 400 (error_body "Missing attendee_id or event_id"), bob_only)
  /\ register_to_event (delete "attendee_id" attendee_zero) bob_only
     = register_to_event attendee_zero bob_only
  /\ registrations (snd (register_to_event attendee_zero bob_only)) = [].
Proof.
  apply (register_to_event_falsy_id _ "attendee_id").
  - by left.
  - reflexivity.
Defined.

(** ** Payments *)




Lemma handle_payments (parser : string -> option datetime) (r : request) (s : db) :
  exists new, payments (snd (handle parser r s)) = payments s ++ new
              /\ all_successful new.
Proof.
  assert (exists new, payments s = payments s ++ new /\ all_successful new)
    as Hsame by (exists []; split; [by rewrite app_nil_r | constructor]).
  destruct r; simpl.
  - unfold register_user, commit_user. repeat case_match; simplify_eq; by simpl.
  - unfold login_user. by case_match.
  - done.
  - unfold get_event. by case_match.
  - unfold create_event, commit_event. repeat case_match; simplify_eq; by simpl.
  - unfold register_to_event, commit_registration.
    repeat case_match; simplify_eq; by simpl.
  - unfold process_payment, commit_payment.
    repeat case_match; simplify_eq; simpl; try done;
      eexists; (split; [reflexivity | by repeat constructor]).
Qed.

(** C7: in every state reachable through the API endpoints every Payment
    row has status "successful", so neither "pending" nor "failed" ever
    occurs; and no request changes an existing Payment row: whatever the
    request, the rows present before it are still there, in place and
    unchanged, followed by the rows it added, which are "successful" too. *)
Theorem payment_status_never_changes (parser : string -> option datetime)
    (s : db) :
  reachable parser s ->
  all_successful (payments s)
  /\ (forall row, row ∈ payments s ->
        Payment.status row <> VStr "pending"
        /\ Payment.status row <> VStr "failed")
  /\ (forall r : request,
        exists new, payments (snd (handle parser r s)) = payments s ++ new
                    /\ all_successful new).
Proof.
  intros Hreach.
  assert (all_successful (payments s)) as Hall.
  { revert s Hreach.
    apply (reachable_ind parser (fun s => all_successful (payments s))).
    - constructor.
    - intros r s Hs. destruct (handle_payments parser r s) as (new & -> & Hnew).
      by apply Forall_app. }
  split; [done |]. split.
  - intros row Hin. unfold all_successful in Hall.
    rewrite Forall_forall in Hall. rewrite (Hall row Hin). split; discriminate.
  - intros r. apply handle_payments.
Qed.

Lemma payment_status_never_changes_witness :
  length (payments after_payments) = 2
  /\ all_successful (payments after_payments)
  /\ (forall row, row ∈ payments after_payments ->
        Payment.status row <> VStr "pending"
        /\ Payment.status row <> VStr "failed")
  /\ (forall r : request,
        exists new, payments (snd (handle fromisoformat_date r after_payments))
                    = payments after_payments ++ new /\ all_successful new).
Proof.
  split; [reflexivity |].
  apply (payment_status_never_changes fromisoformat_date).
  eexists. reflexivity.
Defined.

(** ** Events: listing *)

(** C8: for every stored state, [get_events] answers with one summary per
    stored Event row, none left out and none added, in the order of the
    table, which is insertion order (a created event comes last); the date
    of a summary is the ISO-8601 string of the stored timestamp, or null
    when the stored date is null, and the other fields are those of the
    row. The state is not changed. *)
Theorem get_events_lists_every_event (s : db) :
  exists summaries : list pyval,
    get_events s = (Json 200 (VList summaries), s)
    /\ length summaries = length (events s)
    /\ (forall (i : nat) (event : Event.t),
          events s !! i = Some event ->
          exists summary,
            summaries !! i = Some summary
            /\ dict_field "id" summary = Some (VInt (Event.id event))
            /\ dict_field "title" summary = Some (Event.title event)
            /\ dict_field "description" summary = Some (Event.description event)
            /\ dict_field "date" summary = Some (date_json (Event.date event))
            /\ dict_field "location" summary = Some (Event.location event)
            /\ dict_field "price" summary = Some (Event.price event)
            /\ dict_field "organizer_id" summary
               = Some (Event.organizer_id event))
    /\ (forall (parser : string -> option datetime) (data : gmap string pyval)
               (body : pyval) (s' : db),
          create_event parser data s = (Json 200 body, s') ->
          exists event,
            events s' = events s ++ [event]
            /\ fst (get_events s')
               = Json 200 (VList (summaries ++ [event_summary event]))).
Proof.
  exists (map event_summary (events s)). split; [reflexivity |].
  split; [apply length_map |]. split.
  - intros i event Hi. exists (event_summary event). split.
    + change (map event_summary (events s)) with (event_summary <$> events s).
      by rewrite list_lookup_fmap, Hi.
    + repeat split.
  - intros parser data body s' Hcreate.
    rewrite create_event_unfold in Hcreate.
    destruct (event_date_of parser _) as [d | []]; try discriminate.
    destruct (is_none _ || is_none _); [discriminate |].
    injection Hcreate as _ <-. eexists. split; [reflexivity |].
    unfold get_events. simpl. by rewrite map_app.
Qed.

Lemma get_events_lists_every_event_witness :
  exists first_summary second_summary,
    fst (get_events two_events)
    = Json 200 (VList [first_summary; second_summary])
    /\ dict_field "title" first_summary = Some (VStr "Conf")
    /\ dict_field "date" first_summary = Some VNone
    /\ dict_field "title" second_summary = Some (VStr "Gala")
    /\ dict_field "date" second_summary = Some (VStr "2024-02-29T00:00:00").
Proof.
  destruct (get_events_lists_every_event two_events)
    as (summaries & Hget & Hlen & Hrows & _).
  destruct summaries as [| a [| b [| c rest]]]; try discriminate Hlen.
  exists a, b. split; [by rewrite Hget |].
  destruct (Hrows 0%nat _ eq_refl) as (x & Hx & _ & Ht0 & _ & Hd0 & _).
  destruct (Hrows 1%nat _ eq_refl) as (y & Hy & _ & Ht1 & _ & Hd1 & _).
  simpl in Hx, Hy. injection Hx as <-. injection Hy as <-.
  repeat split; assumption.
Defined.

(** ** The scenario of the specification, end to end *)

Example scenario :
  let s1 := snd (register_user alice_secret empty_db) in
  let s2 := snd (create_event fromisoformat_date conf_body s1) in
  let s3 := snd (register_to_event
                   {[ "attendee_id" := VInt 1; "event_id" := VInt 1 ]} s2) in
  fst (login_user alice_secret s1)
    = Json 200 (login_body (User.mk 1 (VStr "alice") (VStr "secret") (VStr "user")))
  /\ (exists summary, fst (get_events s2) = Json 200 (VList [summary])
        /\ dict_field "price" summary = Some (VFloat (S754_finite false 5 1)))
  /\ registrations s3 = [Registration.mk 1 (VInt 1) (VInt 1) (VStr "general")]
  /\ (exists body, fst (process_payment noon card_payment s3) = Json 200 body
        /\ dict_field "paymentStatus" body = Some (VStr "successful")).
Proof.
  repeat split.
  - eexists. split; reflexivity.
  - eexists. split; reflexivity.
Qed.

(** * Further properties of the handlers *)

(** ** One request, at most one new row *)

Lemma handle_cases (parser : string -> option datetime) (r : request) (s : db) :
  if is_success (fst (handle parser r s)) then
    match written_table r with
    | Some t => adds_row t s (snd (handle parser r s))
    | None => snd (handle parser r s) = s
    end
  else snd (handle parser r s) = s.
Proof.
  destruct r as [data | data | | event_id | data | data | now data]; simpl.
  - unfold register_user.
    destruct (negb _ || negb _); [done |].
    destruct (find _ (users s)); [done |].
    unfold commit_user.
    destruct (is_none _ || is_none _); [done |].
    destruct (username_taken _ _); [done |].
    simpl. eexists. split; [| reflexivity]. reflexivity.
  - unfold login_user. by destruct (find _ (users s)).
  - done.
  - unfold get_event. by destruct (find _ (events s)).
  - rewrite create_event_unfold.
    destruct (event_date_of parser _) as [dt | []]; try done.
    destruct (is_none _ || is_none _); [done |].
    simpl. eexists. split; [| reflexivity]. reflexivity.
  - unfold register_to_event.
    destruct (negb _ || negb _); [done |].
    unfold commit_registration.
    destruct (is_none _ || is_none _); [done |].
    simpl. eexists. split; [| reflexivity]. reflexivity.
  - unfold process_payment.
    destruct (negb _); [done |].
    unfold commit_payment.
    destruct (is_none _ || is_none _ || is_none _); [done |].
    simpl. eexists. split; [| reflexivity]. reflexivity.
Qed.

Lemma adds_row_total (t : table) (s s' : db) :
  adds_row t s s' -> total_rows s' = S (total_rows s).
Proof.
  destruct t; intros (row & _ & ->); unfold total_rows; simpl;
    rewrite length_app; simpl; lia.
Qed.

(** X1: a request that is not answered with status 200 (a 400, the 404, an
    uncaught exception) leaves every table as it was; a request answered
    with 200 leaves the database as it was when it is a login or one of the
    two GETs, and otherwise appends exactly one row, under the next primary
    key, to the one table of its endpoint and changes nothing else. *)
Theorem request_effect (parser : string -> option datetime) (r : request)
    (s : db) :
  (is_success (fst (handle parser r s)) = false -> snd (handle parser r s) = s)
  /\ (is_success (fst (handle parser r s)) = true ->
      match written_table r with
      | Some t => adds_row t s (snd (handle parser r s))
                  /\ total_rows (snd (handle parser r s)) = S (total_rows s)
      | None => snd (handle parser r s) = s
      end).
Proof.
  pose proof (handle_cases parser r s) as H.
  destruct (is_success _); split; try done; intros _.
  destruct (written_table r) as [t |]; [| done].
  split; [done | by apply (adds_row_total t)].
Qed.

Lemma request_effect_witness :
  snd (handle fromisoformat_date (POST_events untitled_party) bob_only) = bob_only
  /\ adds_row Events bob_only
       (snd (handle fromisoformat_date (POST_events conf_body) bob_only))
  /\ total_rows (snd (handle fromisoformat_date (POST_events conf_body) bob_only))
     = 2%nat.
Proof.
  split.
  - apply (proj1 (request_effect fromisoformat_date (POST_events untitled_party)
                    bob_only)). reflexivity.
  - apply (proj2 (request_effect fromisoformat_date (POST_events conf_body)
                    bob_only)). reflexivity.
Defined.

(** ** Rows are never changed or removed *)

(** X2: no sequence of requests updates, moves or deletes a stored row: a
    row found at some position of a table is found unchanged at the same
    position after any further requests, in each of the four tables. *)
Theorem stored_rows_are_kept (parser : string -> option datetime)
    (later : list request) (s : db) (i : nat) :
  (forall row, users s !! i = Some row ->
               users (serve parser later s) !! i = Some row)
  /\ (forall row, events s !! i = Some row ->
                  events (serve parser later s) !! i = Some row)
  /\ (forall row, registrations s !! i = Some row ->
                  registrations (serve parser later s) !! i = Some row)
  /\ (forall row, payments s !! i = Some row ->
                  payments (serve parser later s) !! i = Some row).
Proof.
  destruct (serve_extends parser later s)
    as ([a ->] & [b ->] & [c ->] & [d ->]).
  repeat split; intros row Hrow; by apply lookup_app_l_Some.
Qed.

Lemma stored_rows_are_kept_witness :
  users (serve fromisoformat_date
           [POST_users_register alice_secret; POST_users_register bob_another;
            POST_events conf_body] bob_only) !! 0%nat = Some bob_row.
Proof.
  apply (stored_rows_are_kept fromisoformat_date _ bob_only 0). reflexivity.
Defined.

(** ** Primary keys *)

Section Keys.

Context {A : Type} (key : A -> Z).


Lemma foldr_max_base (rows : list A) (b : Z) :
  (0 <= b)%Z ->
  foldr (fun r m => Z.max (key r) m) b rows
  = Z.max (foldr (fun r m => Z.max (key r) m) 0%Z rows) b.
Proof.
  intros Hb. induction rows as [| r rows IH]; simpl; [lia |]. rewrite IH. lia.
Qed.


Lemma sequential_next_id (rows : list A) :
  sequential key rows -> next_id key rows = (Z.of_nat (length rows) + 1)%Z.
Proof.
  unfold next_id. induction rows as [| x rows IH] using rev_ind; intros Hseq.
  - reflexivity.
  - rewrite foldr_app, foldr_max_base, length_app by (simpl; lia). simpl.
    assert (sequential key rows) as Hrows.
    { intros i row Hi. apply Hseq. by apply lookup_app_l_Some. }
    specialize (IH Hrows).
    assert (key x = (Z.of_nat (length rows) + 1)%Z) as Hx.
    { apply Hseq. rewrite lookup_app_r by lia.
      by replace (length rows - length rows)%nat with 0%nat by lia. }
    lia.
Qed.

Lemma sequential_snoc (rows : list A) (row : A) :
  sequential key rows -> key row = next_id key rows ->
  sequential key (rows ++ [row]).
Proof.
  intros Hseq Hkey i x Hi.
  destruct (decide (i < length rows)%nat) as [Hlt | Hge].
  - rewrite lookup_app_l in Hi by done. by apply Hseq.
  - rewrite lookup_app_r in Hi by lia.
    destruct (i - length rows)%nat as [| n] eqn:E; [| done].
    injection Hi as <-. rewrite Hkey, sequential_next_id by done. lia.
Qed.


End Keys.

Lemma adds_row_sequential (t : table) (s s' : db) :
  adds_row t s s' -> ids_sequential s -> ids_sequential s'.
Proof.
  intros Hadd (Hu & He & Hr & Hp).
  destruct t; destruct Hadd as (row & Hid & ->); repeat split; simpl;
    try done; by apply sequential_snoc.
Qed.

Lemma handle_ids_sequential (parser : string -> option datetime) (r : request)
    (s : db) :
  ids_sequential s -> ids_sequential (snd (handle parser r s)).
Proof.
  intros Hseq. pose proof (handle_cases parser r s) as H.
  destruct (is_success _); [| by rewrite H].
  destruct (written_table r) as [t |]; [| by rewrite H].
  by apply (adds_row_sequential t s).
Qed.

Lemma reachable_ids_sequential (parser : string -> option datetime) (s : db) :
  reachable parser s -> ids_sequential s.
Proof.
  revert s. apply (reachable_ind parser ids_sequential).
  - repeat split; intros i row Hi; simpl in Hi; by rewrite lookup_nil in Hi.
  - intros r s. apply handle_ids_sequential.
Qed.

(** X3: in every state reachable through the API, the primary keys of each
    table count its rows from 1 in insertion order: the row at position [i]
    has id [i + 1], so ids are never reused, skipped or shared, and the next
    row gets the number of rows plus one. *)
Theorem primary_keys_count_rows (parser : string -> option datetime) (s : db) :
  reachable parser s ->
  ids_sequential s
  /\ next_id User.id (users s) = (Z.of_nat (length (users s)) + 1)%Z
  /\ next_id Event.id (events s) = (Z.of_nat (length (events s)) + 1)%Z
  /\ next_id Registration.id (registrations s)
     = (Z.of_nat (length (registrations s)) + 1)%Z
  /\ next_id Payment.id (payments s) = (Z.of_nat (length (payments s)) + 1)%Z.
Proof.
  intros Hreach.
  pose proof (reachable_ids_sequential parser s Hreach) as Hseq.
  split; [done |]. destruct Hseq as (Hu & He & Hr & Hp).
  repeat split; by apply sequential_next_id.
Qed.

Lemma primary_keys_count_rows_witness :
  ids_sequential after_payments
  /\ next_id User.id (users after_payments) = 2%Z
  /\ next_id Event.id (events after_payments) = 1%Z
  /\ next_id Registration.id (registrations after_payments) = 1%Z
  /\ next_id Payment.id (payments after_payments) = 3%Z.
Proof.
  apply (primary_keys_count_rows fromisoformat_date after_payments).
  eexists. reflexivity.
Defined.

(** ** Looking an event up by id *)







(** ** Exceptions that escape a handler *)


Lemma username_taken_find (u : pyval) (rows : list User.t) :
  find (fun row => pyval_eqb (User.username row) u) rows = None ->
  username_taken u rows = false.
Proof.
  intros Hfind. apply username_taken_false. by apply find_by_username_None.
Qed.




(** X6: a [create_event] call whose date is a truthy value that is not a
    string (a number, [true], a non-empty list or object) ends in a
    [TypeError] that the handler, which only catches [ValueError], lets
    through: there is no JSON answer and nothing is stored, whatever the
    other fields are. *)
Theorem create_event_date_not_a_string (parser : string -> option datetime)
    (data : gmap string pyval) (s : db) :
  truthy (dict_get data "date") = true ->
  (forall text, dict_get data "date" <> VStr text) ->
  create_event parser data s = (Uncaught TypeError, s).
Proof.
  intros Htruthy Hnostr. rewrite create_event_unfold. unfold event_date_of.
  rewrite Htruthy. destruct (dict_get data "date"); try done.
  by edestruct Hnostr.
Qed.

Lemma create_event_date_not_a_string_witness :
  create_event fromisoformat_date numeric_date_body bob_only
  = (Uncaught TypeError, bob_only).
Proof.
  apply (create_event_date_not_a_string fromisoformat_date numeric_date_body).
  - reflexivity.
  - intros text. discriminate.
Defined.



(** ** More on user registration *)

(** X8: a [register_user] call whose username or password is missing or
    falsy is answered with HTTP 400 "Missing username or password" and
    stores nothing; the check comes first, so this is also the answer when
    the username is already taken. *)
Theorem register_user_missing_field (data : gmap string pyval) (s : db) :
  truthy (dict_get data "username") = false
  \/ truthy (dict_get data "password") = false ->
  register_user data s
  = (Json 400 (error_body "Missing username or password"), s).
Proof.
  intros [H | H]; unfold register_user; rewrite H; simpl;
    [done | by rewrite orb_true_r].
Qed.

Lemma register_user_missing_field_witness :
  register_user bob_no_password bob_only
  = (Json 400 (error_body "Missing username or password"), bob_only).
Proof.
  apply (register_user_missing_field bob_no_password bob_only).
  right. reflexivity.
Defined.

(** X9: sending the same registration twice never creates two users: after
    a first [register_user] call, whatever its answer, the same call again
    is not answered with 200 and leaves the database as the first call left
    it. *)
Theorem register_user_twice (data : gmap string pyval) (s : db) :
  is_success (fst (register_user data (snd (register_user data s)))) = false
  /\ snd (register_user data (snd (register_user data s)))
     = snd (register_user data s).
Proof.
  destruct (negb (truthy (dict_get data "username"))
            || negb (truthy (dict_get data "password"))) eqn:Hmiss.
  - assert (forall s0, register_user data s0
              = (Json 400 (error_body "Missing username or password"), s0))
      as Hsame by (intros s0; unfold register_user; by rewrite Hmiss).
    by rewrite !Hsame.
  - apply orb_false_elim in Hmiss as [Hu%negb_false_iff Hp%negb_false_iff].
    destruct (find (by_username (dict_get data "username")) (users s))
      as [hit |] eqn:Hfind.
    + assert (register_user data s
              = (Json 400 (error_body "Username already exists"), s)) as Hdup.
      { apply register_user_taken; [done | done |].
        apply find_some in Hfind as [Hin Heq%pyval_eqb_eq].
        exists hit. split; [by apply list_elem_of_In | done]. }
      rewrite Hdup. simpl. by rewrite Hdup.
    + rewrite (register_user_fresh data s Hu Hp)
        by (by apply find_by_username_None).
      simpl. rewrite register_user_taken; [done | done | done |].
      eexists. split; [apply elem_of_app; right; by left | reflexivity].
Qed.

(** X10: a username that is stored stays taken: after any further requests,
    [register_user] with that (non-empty) username and any truthy password
    is still refused with HTTP 400 "Username already exists" and stores
    nothing. *)
Theorem username_stays_taken (parser : string -> option datetime)
    (later : list request) (data : gmap string pyval) (u : string) (s : db) :
  u <> "" ->
  (exists row, row ∈ users s /\ User.username row = VStr u) ->
  data !! "username" = Some (VStr u) ->
  truthy (dict_get data "password") = true ->
  register_user data (serve parser later s)
  = (Json 400 (error_body "Username already exists"), serve parser later s).
Proof.
  intros Hu (row & Hin & Hrow) Du Hp. apply dict_get_Some in Du.
  apply register_user_taken; rewrite ?Du; [by apply truthy_str | done |].
  destruct (serve_extends parser later s) as ([more ->] & _).
  exists row. split; [apply elem_of_app; by left | done].
Qed.

Lemma username_stays_taken_witness :
  register_user bob_another
    (serve fromisoformat_date
       [POST_users_register alice_secret; POST_events conf_body] bob_only)
  = (Json 400 (error_body "Username already exists"),
     serve fromisoformat_date
       [POST_users_register alice_secret; POST_events conf_body] bob_only).
Proof.
  apply (username_stays_taken fromisoformat_date _ bob_another "bob" bob_only).
  - discriminate.
  - exists bob_row. split; [by left | reflexivity].
  - reflexivity.
  - reflexivity.
Defined.

(** ** More on login *)

Lemma unique_username_row (rows : list User.t) (a b : User.t) :
  NoDup (map User.username rows) -> a ∈ rows -> b ∈ rows ->
  User.username a = User.username b -> a = b.
Proof.
  intros Hnd [i Hi]%list_elem_of_lookup [j Hj]%list_elem_of_lookup Heq.
  assert (i = j) as ->; [| congruence].
  eapply NoDup_lookup; [exact Hnd | |]; rewrite list_lookup_fmap;
    [rewrite Hi | rewrite Hj]; simpl; [rewrite Heq |]; reflexivity.
Qed.

(** X11: in a User table that satisfies its unique constraint, a
    [login_user] call with the username of a stored row is answered with
    200 and that row's id, username and role exactly when the password sent
    is the stored one; the password itself is not part of the answer. *)
Theorem login_succeeds_iff (data : gmap string pyval) (u p : string)
    (row : User.t) (s : db) :
  NoDup (map User.username (users s)) ->
  row ∈ users s ->
  User.username row = VStr u ->
  data !! "username" = Some (VStr u) ->
  data !! "password" = Some (VStr p) ->
  (login_user data s = (Json 200 (login_body row), s)
   <-> User.password row = VStr p)
  /\ dict_field "password" (login_body row) = None.
Proof.
  intros Hnd Hin Hu Du Dp. apply dict_get_Some in Du, Dp.
  split; [| reflexivity].
  unfold login_user. rewrite Du, Dp.
  destruct (find _ (users s)) as [hit |] eqn:Hfind.
  - apply find_some in Hfind as [Hhit Hmatch].
    apply andb_true_iff in Hmatch as [Hname%pyval_eqb_eq Hpass%pyval_eqb_eq].
    apply list_elem_of_In in Hhit.
    assert (hit = row) as -> by (apply (unique_username_row (users s));
                                 [done | done | done | congruence]).
    split; [by intros _ | done].
  - split; [discriminate |]. intros Hpass.
    pose proof (find_none _ _ Hfind row (proj1 (list_elem_of_In _ _) Hin)) as Hno.
    simpl in Hno. rewrite Hu, Hpass, !pyval_eqb_refl in Hno. discriminate.
Qed.

Lemma login_succeeds_iff_witness :
  (login_user bob_wrong_case bob_only = (Json 200 (login_body bob_row), bob_only)
   <-> User.password bob_row = VStr "Hunter2")
  /\ dict_field "password" (login_body bob_row) = None.
Proof.
  apply (login_succeeds_iff bob_wrong_case "bob" "Hunter2" bob_row bob_only).
  - apply NoDup_singleton.
  - by left.
  - reflexivity.
  - reflexivity.
  - reflexivity.
Defined.

Lemma register_user_credentials (data : gmap string pyval) (s : db) :
  credentials_truthy (users s) ->
  credentials_truthy (users (snd (register_user data s))).
Proof.
  intros Hall. unfold register_user.
  destruct (negb (truthy (dict_get data "username"))
            || negb (truthy (dict_get data "password"))) eqn:Hmiss; [done |].
  apply orb_false_elim in Hmiss as [Hu%negb_false_iff Hp%negb_false_iff].
  destruct (find _ (users s)) eqn:Hfind; [done |].
  unfold commit_user.
  rewrite (truthy_not_none _ Hu), (truthy_not_none _ Hp),
    (username_taken_find _ _ Hfind). simpl.
  apply Forall_app. split; [done |]. by constructor.
Qed.

Lemma handle_credentials (parser : string -> option datetime) (r : request)
    (s : db) :
  credentials_truthy (users s) ->
  credentials_truthy (users (snd (handle parser r s))).
Proof.
  intros Hall. destruct (written_table r) as [[] |] eqn:Hkind.
  - destruct r; try discriminate. by apply register_user_credentials.
  - pose proof (handle_cases parser r s) as H. rewrite Hkind in H.
    destruct (is_success _); [| by rewrite H]. by destruct H as (row & _ & ->).
  - pose proof (handle_cases parser r s) as H. rewrite Hkind in H.
    destruct (is_success _); [| by rewrite H]. by destruct H as (row & _ & ->).
  - pose proof (handle_cases parser r s) as H. rewrite Hkind in H.
    destruct (is_success _); [| by rewrite H]. by destruct H as (row & _ & ->).
  - pose proof (handle_cases parser r s) as H. rewrite Hkind in H.
    destruct (is_success _); by rewrite H.
Qed.

Lemma reachable_credentials (parser : string -> option datetime) (s : db) :
  reachable parser s -> credentials_truthy (users s).
Proof.
  revert s. apply (reachable_ind parser (fun s => credentials_truthy (users s))).
  - constructor.
  - intros r s. apply handle_credentials.
Qed.

(** X12: in every state reachable through the API the stored usernames
    are pairwise distinct, and no stored username or password is null,
    empty or otherwise falsy. *)
Theorem stored_credentials_invariant (parser : string -> option datetime)
    (s : db) :
  reachable parser s ->
  NoDup (map User.username (users s))
  /\ (forall row, row ∈ users s ->
        truthy (User.username row) = true /\ truthy (User.password row) = true
        /\ User.username row <> VNone /\ User.password row <> VNone
        /\ User.username row <> VStr "" /\ User.password row <> VStr "").
Proof.
  intros Hreach. split; [by destruct (reachable_users_wf parser s Hreach) |].
  intros row Hin.
  pose proof (reachable_credentials parser s Hreach) as Hall.
  unfold credentials_truthy in Hall. rewrite Forall_forall in Hall.
  destruct (Hall row Hin) as [Hu Hp].
  repeat split; try done; intros Heq; rewrite Heq in *; discriminate.
Qed.

Lemma stored_credentials_invariant_witness :
  NoDup (map User.username (users after_payments))
  /\ (forall row, row ∈ users after_payments ->
        truthy (User.username row) = true /\ truthy (User.password row) = true
        /\ User.username row <> VNone /\ User.password row <> VNone
        /\ User.username row <> VStr "" /\ User.password row <> VStr "").
Proof.
  apply (stored_credentials_invariant fromisoformat_date after_payments).
  eexists. reflexivity.
Defined.



(** ** Repeated registrations and payments *)





